(** * spellcheck-installer: a shallow embedding of [scripts/spellcheck-installer.py]

    The script scrapes a listing page for [.bdic] dictionary files, downloads
    the selected one (base64 text), decodes it and writes it into the
    chromium configuration directories that exist.

    Python values are modelled as follows.
    - [str] is [string]; every operation used by the script works character
      by character, so an 8-bit character stands for a code point.
    - [bytes] is a list of integers in [0, 256).
    - the [dict] built by the listing fetcher is an association list kept in
      insertion order with unique keys (what [list(d.keys())] prints).
    - the outside world (command line, HTTP server, HTML parser, existing
      paths, home directories, write permissions) is a record [Env]; what the
      run changes (files, requests sent, lines printed) is a record [World],
      threaded through a state-and-exception monad [Py]. *)

From stdpp Require Import base decidable option list strings gmap.
From Stdlib Require Import ZArith Lia Ascii.

Local Open Scope Z_scope.

(* Let [simpl] compute the append of a string that starts with a literal. *)
Local Arguments String.append : simpl nomatch.

(** ** Python string methods used by the script *)

Module Str.

(** [s.startswith(p)] *)
Fixpoint startswith (s p : string) {struct p} : bool :=
  match p, s with
  | EmptyString, _ => true
  | String _ _, EmptyString => false
  | String a p', String b s' =>
      if decide (a = b) then startswith s' p' else false
  end.

(** [s.endswith(suf)] *)
Fixpoint endswith (s suf : string) : bool :=
  if decide (s = suf) then true
  else match s with
       | EmptyString => false
       | String _ s' => endswith s' suf
       end.

(** The scan of [s.replace(old, new)] for a non-empty [old]: left to right,
    every non-overlapping occurrence of [old] is replaced. [skip] counts
    the characters of a matched occurrence that are still to be dropped. *)
Fixpoint replace_from (old new : string) (skip : nat) (s : string) : string :=
  match s with
  | EmptyString => EmptyString
  | String c s' =>
      match skip with
      | S k => replace_from old new k s'
      | O =>
          if startswith s old
          then new +:+ replace_from old new (String.length old - 1) s'
          else String c (replace_from old new 0 s')
      end
  end.

(** [s.replace("", new)] puts [new] before every character and at the end. *)
Fixpoint replace_empty (new s : string) : string :=
  match s with
  | EmptyString => new
  | String c s' => new +:+ String c (replace_empty new s')
  end.

(** [s.replace(old, new)] *)
Definition replace (s old new : string) : string :=
  if decide (old = EmptyString) then replace_empty new s
  else replace_from old new 0 s.

(** [s.removesuffix(suf)]: [s] without its trailing [suf], and [s] itself
    when it does not end with [suf]. The script does not call it; it is
    what "the label with the extension suffix removed" means. *)
Definition removesuffix (s suf : string) : string :=
  if endswith s suf
  then String.substring 0 (String.length s - String.length suf) s
  else s.

End Str.

(** ** The insertion-ordered dictionary *)

Module Dict.

Section dict.
Context {V : Type}.

Definition t := list (string * V).

Definition empty : t := [].

(** [d[k]]; [None] stands for [KeyError]. *)
Fixpoint get (d : t) (k : string) : option V :=
  match d with
  | [] => None
  | (k', v) :: d' => if decide (k' = k) then Some v else get d' k
  end.

(** [k in d] *)
Definition contains (d : t) (k : string) : bool :=
  match get d k with Some _ => true | None => false end.

(** [d[k] = v]: an existing key keeps its position, a new one goes last. *)
Fixpoint set (d : t) (k : string) (v : V) : t :=
  match d with
  | [] => [(k, v)]
  | (k', v') :: d' =>
      if decide (k' = k) then (k', v) :: d' else (k', v') :: set d' k v
  end.

(** [list(d.keys())] *)
Definition keys (d : t) : list string := d.*1.

End dict.

Global Arguments t : clear implicits.

End Dict.

(** ** Module constants *)

Definition repo_url : string := "https://chromium.googlesource.com".
Definition file_ext : string := ".bdic".

(** ** The listing: anchors to links_dict *)

(** One element of [soup.find_all("a", class_="FileList-itemLink")]:
    [link_text] is [link.get_text(strip=True)], [link_href] is
    [link.get("href")], which is [None] for an anchor without the attribute. *)
Record Anchor := { link_text : string; link_href : option string }.

(** The filter of the comprehension of [get_lang_file_links]:
    [link_text.endswith(file_ext)]. *)
Definition link_kept (link : Anchor) : bool :=
  Str.endswith (link_text link) file_ext.

(** The key of the comprehension: [link_text.replace(file_ext, "")]. *)
Definition link_key (link : Anchor) : string :=
  Str.replace (link_text link) file_ext "".

(** The dict comprehension of [get_lang_file_links] (lines 63-67): the
    anchors are visited in page order, each kept one sets its key. *)
Definition links_of_anchors (file_links : list Anchor) : Dict.t (option string) :=
  foldl
    (fun d link =>
       if link_kept link then Dict.set d (link_key link) (link_href link) else d)
    Dict.empty file_links.

(** ** Exceptions *)

Inductive Exn :=
| Exception_ (msg : string)     (* [raise Exception(msg)] *)
| KeyError (key : string)       (* [links_dict[lang_code]] on a missing key *)
| ValueError (msg : string)     (* [base64.b64decode] on a non-ASCII [str] *)
| BinasciiError (msg : string)  (* [binascii.Error] *)
| OSError (path : string).      (* [open(path, "wb")] failed *)

(** ** [base64.b64decode(s)] with its default [validate=False]

    [b64decode] encodes a [str] argument as ASCII and hands it to
    [binascii.a2b_base64], whose non-strict loop is transcribed below. *)

Module Base64.

(** [table_a2b_base64]: the value of a character of the alphabet,
    [None] for every other character. *)
Definition table_a2b_base64 (c : ascii) : option Z :=
  let n := Z.of_N (N_of_ascii c) in
  if (65 <=? n) && (n <=? 90) then Some (n - 65)
  else if (97 <=? n) && (n <=? 122) then Some (n - 71)
  else if (48 <=? n) && (n <=? 57) then Some (n + 4)
  else if n =? 43 then Some 62
  else if n =? 47 then Some 63
  else None.

Definition BASE64_PAD : ascii := "="%char.

(** The texts of the exceptions; the first one also gives the number of
    data characters, which is left out here. *)
Definition msg_one_extra : string :=
  "Invalid base64-encoded string: number of data characters cannot be 1 more than a multiple of 4".
Definition msg_padding : string := "Incorrect padding".
Definition msg_ascii : string :=
  "string argument should contain only ASCII characters".

(** [*bin_data++ = b]: one more byte of output, unless the rest of the
    input raises. *)
Definition emit (b : Z) (r : Exn + list Z) : Exn + list Z :=
  match r with
  | inl e => inl e
  | inr bs => inr (b :: bs)
  end.

(** The loop over the input. [quad_pos] is the position inside the current
    group of four characters, [leftchar] the bits left over from the
    previous character, [pads] the padding characters seen since the last
    character of the alphabet. A character outside the alphabet is skipped;
    a complete padding sequence ends the decoding, whatever follows. *)
Fixpoint a2b_loop (s : string) (quad_pos : nat) (leftchar : Z) (pads : nat)
  : Exn + list Z :=
  match s with
  | EmptyString =>
      match quad_pos with
      | O => inr []
      | 1%nat => inl (BinasciiError msg_one_extra)
      | _ => inl (BinasciiError msg_padding)
      end
  | String this_ch s' =>
      if decide (this_ch = BASE64_PAD) then
        if (2 <=? quad_pos)%nat then
          if (4 <=? quad_pos + S pads)%nat then inr []
          else a2b_loop s' quad_pos leftchar (S pads)
        else a2b_loop s' quad_pos leftchar pads
      else
        match table_a2b_base64 this_ch with
        | None => a2b_loop s' quad_pos leftchar pads
        | Some v =>
            match quad_pos with
            | 0%nat => a2b_loop s' 1 v 0
            | 1%nat =>
                emit (Z.lor (Z.shiftl leftchar 2) (Z.shiftr v 4))
                  (a2b_loop s' 2 (Z.land v 15) 0)
            | 2%nat =>
                emit (Z.lor (Z.shiftl leftchar 4) (Z.shiftr v 2))
                  (a2b_loop s' 3 (Z.land v 3) 0)
            | _ =>
                emit (Z.lor (Z.shiftl leftchar 6) v)
                  (a2b_loop s' 0 0 0)
            end
        end
  end.

Definition a2b_base64 (s : string) : Exn + list Z := a2b_loop s 0 0 0.

(** [s.encode('ascii')] succeeds iff every character is below 128. *)
Fixpoint is_ascii (s : string) : bool :=
  match s with
  | EmptyString => true
  | String c s' => (Z.of_N (N_of_ascii c) <? 128) && is_ascii s'
  end.

Definition b64decode (s : string) : Exn + list Z :=
  if is_ascii s then a2b_base64 s else inl (ValueError msg_ascii).

(** The standard encoder, used only to state what decoding means. *)
Definition alphabet (v : Z) : ascii :=
  ascii_of_N (Z.to_N
    (if v <? 26 then v + 65
     else if v <? 52 then v + 71
     else if v <? 62 then v - 4
     else if v =? 62 then 43 else 47)).

(** The four 6-bit values that three bytes [a], [b], [c] are cut into. *)
Definition sextet0 (a : Z) : Z := Z.shiftr a 2.
Definition sextet1 (a b : Z) : Z :=
  Z.lor (Z.shiftl (Z.land a 3) 4) (Z.shiftr b 4).
Definition sextet2 (b c : Z) : Z :=
  Z.lor (Z.shiftl (Z.land b 15) 2) (Z.shiftr c 6).
Definition sextet3 (c : Z) : Z := Z.land c 63.

Fixpoint b64encode (bs : list Z) : string :=
  match bs with
  | [] => EmptyString
  | [a] =>
      String (alphabet (sextet0 a)) (String (alphabet (sextet1 a 0)) "==")
  | [a; b] =>
      String (alphabet (sextet0 a))
        (String (alphabet (sextet1 a b))
           (String (alphabet (sextet2 b 0)) "="))
  | a :: b :: c :: rest =>
      String (alphabet (sextet0 a))
        (String (alphabet (sextet1 a b))
           (String (alphabet (sextet2 b c))
              (String (alphabet (sextet3 c)) (b64encode rest))))
  end.

(** The characters the decoder looks at: those of the alphabet and the
    padding character. *)
Definition in_alphabet (c : ascii) : bool :=
  match table_a2b_base64 c with Some _ => true | None => false end.

Definition is_pad (c : ascii) : bool := bool_decide (c = BASE64_PAD).

(** [s] without the characters the decoder skips. *)
Fixpoint strip (s : string) : string :=
  match s with
  | EmptyString => EmptyString
  | String c s' =>
      if in_alphabet c || is_pad c then String c (strip s') else strip s'
  end.

(** The integers that are bytes, as a list and as a predicate. *)
Definition below (n : nat) : list Z := Z.of_nat <$> seq 0 n.
Definition is_byte (b : Z) : Prop := 0 <= b < 256.

(** What a state of the decoder keeps of the previous characters: six bits
    after the first character of a group, four after the second, two after
    the third. *)
Definition leftchar_fits (quad_pos : nat) (leftchar : Z) : Prop :=
  match quad_pos with
  | 0%nat => True
  | 1%nat => 0 <= leftchar < 64
  | 2%nat => 0 <= leftchar < 16
  | _ => 0 <= leftchar < 4
  end.

(** A well-formed base64 text: groups of four characters of the alphabet,
    the last group possibly ending in one or two padding characters. *)
Fixpoint well_formed (s : string) : bool :=
  match s with
  | EmptyString => true
  | String a (String b (String c (String d rest))) =>
      in_alphabet a && in_alphabet b &&
      ((in_alphabet c && in_alphabet d && well_formed rest)
       || (in_alphabet c && is_pad d && bool_decide (rest = EmptyString))
       || (is_pad c && is_pad d && bool_decide (rest = EmptyString)))
  | _ => false
  end.

End Base64.

(** ** Paths *)

(** [os.path.join(a, b)] of [posixpath]. *)
Definition os_path_join (a b : string) : string :=
  if Str.startswith b "/" then b
  else if bool_decide (a = "") || Str.endswith a "/" then a +:+ b
  else a +:+ "/" +:+ b.

(** ** The outside world *)

(** What [requests.get(url)] returns: [response.status_code], [response.text]. *)
Record Response := { status_code : Z; text : string }.

(** Everything the run reads and cannot change. *)
Record Env := {
  (** [sys.argv], the script name first *)
  argv : list string;
  (** [requests.get] *)
  requests_get : string -> Response;
  (** [BeautifulSoup(text, "html.parser").find_all("a", class_="FileList-itemLink")] *)
  find_all : string -> list Anchor;
  (** [os.path.exists] *)
  os_path_exists : string -> bool;
  (** what [os.path.expanduser] makes of a path that starts with a tilde *)
  expand_tilde : string -> string;
  (** whether [open(path, "wb")] raises (permissions, missing parent) *)
  open_raises : string -> bool
}.

(** One call of [print]: a string, or a list of strings shown with [repr]. *)
Inductive Printed :=
| Line (s : string)
| ReprList (l : list string).

(** What the run changes: the files written, the URLs requested, the writes
    in the order they happened, and standard output. *)
Record World := {
  files : gmap string (list Z);
  requests : list string;
  writes : list (string * list Z);
  stdout : list Printed
}.

(** ** The monad of a Python run: state and exceptions *)

Definition Py (A : Type) : Type := World -> (Exn + A) * World.

Definition ret {A} (a : A) : Py A := fun w => (inr a, w).

Definition raise {A} (e : Exn) : Py A := fun w => (inl e, w).

Definition bind {A B} (m : Py A) (k : A -> Py B) : Py B :=
  fun w =>
    match m w with
    | (inl e, w') => (inl e, w')
    | (inr a, w') => k a w'
    end.

Declare Scope py_scope.
Delimit Scope py_scope with py.
Notation "x <- m ;; k" := (bind m (fun x => k))
  (at level 100, m at next level, k at level 200, right associativity) : py_scope.
Notation "m ;; k" := (bind m (fun _ => k))
  (at level 100, k at level 200, right associativity) : py_scope.

(** A pure computation that may raise. *)
Definition lift {A} (r : Exn + A) : Py A := fun w => (r, w).

(** [print(...)] *)
Definition print (p : Printed) : Py unit :=
  fun w =>
    (inr tt,
     {| files := files w; requests := requests w; writes := writes w;
        stdout := stdout w ++ [p] |}).

(** [requests.get(url)]: the request is recorded, the server answers. *)
Definition http_get (e : Env) (url : string) : Py Response :=
  fun w =>
    (inr (requests_get e url),
     {| files := files w; requests := requests w ++ [url];
        writes := writes w; stdout := stdout w |}).

(** [with open(path, "wb") as f: f.write(data)]: the file is created or
    truncated and holds [data] afterwards, unless [open] raises. *)
Definition write_binary (e : Env) (path : string) (data : list Z) : Py unit :=
  fun w =>
    if open_raises e path then (inl (OSError path), w)
    else
      (inr tt,
       {| files := <[path := data]> (files w); requests := requests w;
          writes := writes w ++ [(path, data)]; stdout := stdout w |}).

(** [os.path.expanduser(path)]: a path that does not start with a tilde is
    returned unchanged. *)
Definition expanduser (e : Env) (path : string) : string :=
  if Str.startswith path "~" then expand_tilde e path else path.

(** Truth value of a [str] or [None]. *)
Definition truthy (v : option string) : bool :=
  match v with
  | None => false
  | Some s => negb (bool_decide (s = ""))
  end.

(** How an f-string shows [link.get("href")]. *)
Definition format_href (h : option string) : string :=
  match h with
  | None => "None"
  | Some s => s
  end.

(** ** Printed texts *)

Definition LF : string := String "010"%char "".
Definition TAB : string := String "009"%char "".

Definition msg_usage : string :=
  "First argument should be the name of the binary language dictionary file you require.".
Definition msg_unavailable : string :=
  "Unavailable or invalid language code passed.".
Definition msg_custom_missing : string :=
  "Custom installation directory does not exist.".
Definition msg_no_config_dir : string :=
  "Couldn't find chromium configuration directory (neither OS install nor Flatpak install)".
Definition msg_install_failed : string :=
  "Chromium configuration directory was found but the language file could not be installed. Check permissions.".
Definition msg_success : string :=
  "Please restart chromium and check your language settings at chrome://settings/languages".

Definition msg_failed_to_load (url : string) : string :=
  "Failed to load page " +:+ url.

Definition msg_using_custom (dir : string) : string :=
  "Using custom configuration directory: " +:+ dir +:+ LF +:+
  "Any detected OS or Flatpak install directories will be ignored." +:+ LF.

Definition msg_saved (lang_code path : string) : string :=
  "Saved `" +:+ lang_code +:+ file_ext +:+ "` to " +:+ path.

(** ** The functions of the script *)

Local Open Scope py_scope.

Definition listing_url : string :=
  repo_url +:+ "/chromium/deps/hunspell_dictionaries/+/master".

(** [get_lang_file_links()] *)
Definition get_lang_file_links (e : Env) : Py (Dict.t (option string)) :=
  let url := listing_url in
  response <- http_get e url ;;
  if bool_decide (status_code response ≠ 200)
  then raise (Exception_ (msg_failed_to_load url))
  else
    let file_links := find_all e (text response) in
    ret (links_of_anchors file_links).

(** The URL requested by [download_lang_file_binary]. *)
Definition download_url (href : option string) : string :=
  repo_url +:+ format_href href +:+ "?format=TEXT".

(** [download_lang_file_binary(links_dict, lang_code)] *)
Definition download_lang_file_binary (e : Env)
    (links_dict : Dict.t (option string)) (lang_code : string) : Py string :=
  match Dict.get links_dict lang_code with
  | None => raise (KeyError lang_code)
  | Some href =>
      let url := download_url href in
      response <- http_get e url ;;
      if bool_decide (status_code response ≠ 200)
      then raise (Exception_ (msg_failed_to_load url))
      else ret (text response)
  end.

(** [dictionary_file_path] of [install_lang_file]:
    [os.path.join(directory_path, f"{lang_code}{file_ext}")]. *)
Definition dictionary_file_path (directory_path lang_code : string) : string :=
  os_path_join directory_path (lang_code +:+ file_ext).

(** [install_lang_file(lang_code, lang_file_binary, directory_path)] *)
Definition install_lang_file (e : Env)
    (lang_code : string) (lang_file_binary : list Z) (directory_path : string)
  : Py bool :=
  let path := dictionary_file_path directory_path lang_code in
  write_binary e path lang_file_binary ;;
  print (Line (msg_saved lang_code path)) ;;
  ret true.

(** [print_available(links_dict)] *)
Definition print_available (links_dict : Dict.t (option string)) : Py unit :=
  print (Line (LF +:+ "Available language file names:")) ;;
  print (ReprList (Dict.keys links_dict)) ;;
  print (Line (LF +:+ "Example usage:" +:+ LF +:+ TAB +:+
               "./spellcheck-installer.py en-GB-10-1")).

Definition os_install_path : string := "~/.config/chromium/Dictionaries/".
Definition flatpak_install_path : string :=
  "~/.var/app/com.github.Eloston.UngoogledChromium/config/chromium/Dictionaries/".

(** [main()]. It returns [None] on the two early returns and [links_dict]
    at the end. [custom_install_directory] is [None] or a [str];
    [custom_directory_exists] is the truth value of
    [custom_install_directory and os.path.exists(custom_install_directory)],
    the only way the script looks at it. *)
Definition main (e : Env) : Py (option (Dict.t (option string))) :=
  links_dict <- get_lang_file_links e ;;
  match argv e with
  | _ :: lang_code :: rest =>
      if negb (Dict.contains links_dict lang_code) then
        print (Line msg_unavailable) ;;
        print_available links_dict ;;
        ret None
      else
        custom_install_directory <-
          match rest with
          | arg2 :: _ =>
              let dir := expanduser e arg2 in
              print (Line (msg_using_custom dir)) ;;
              ret (Some dir)
          | [] => ret None
          end ;;
        base64_lang_file <- download_lang_file_binary e links_dict lang_code ;;
        lang_file_binary <- lift (Base64.b64decode base64_lang_file) ;;
        let os_install_dir := expanduser e os_install_path in
        let os_install_exists := os_path_exists e os_install_dir in
        let flatpak_install_dir := expanduser e flatpak_install_path in
        let flatpak_install_exists := os_path_exists e flatpak_install_dir in
        let custom_directory_exists :=
          truthy custom_install_directory
          && os_path_exists e (default "" custom_install_directory) in
        lang_file_installed <-
          (if truthy custom_install_directory && custom_directory_exists then
             install_lang_file e lang_code lang_file_binary
               (default "" custom_install_directory)
           else if negb (truthy custom_install_directory) then
             installed <-
               (if os_install_exists
                then install_lang_file e lang_code lang_file_binary os_install_dir
                else ret false) ;;
             if flatpak_install_exists
             then install_lang_file e lang_code lang_file_binary flatpak_install_dir
             else ret installed
           else ret false) ;;
        (if truthy custom_install_directory && negb custom_directory_exists then
           print (Line msg_custom_missing)
         else if negb flatpak_install_exists && negb os_install_exists then
           print (Line msg_no_config_dir)
         else if negb lang_file_installed then
           print (Line msg_install_failed)
         else
           print (Line msg_success)) ;;
        ret (Some links_dict)
  | _ =>
      print (Line msg_usage) ;;
      print_available links_dict ;;
      ret None
  end.

(** The world before the run: the files already on disk, nothing requested,
    written or printed yet. *)
Definition initial (fs : gmap string (list Z)) : World :=
  {| files := fs; requests := []; writes := []; stdout := [] |}.

Local Close Scope py_scope.

(** ** Derived notions used to state the properties *)

(** The listing a run works with: what [get_lang_file_links] returns when the
    page loads. *)
Definition listing (e : Env) : Dict.t (option string) :=
  links_of_anchors (find_all e (text (requests_get e listing_url))).

(** The File Downloader as a whole, lines 131-132 of [main]: fetch the text,
    then [base64.b64decode] it. *)
Definition download (e : Env)
    (links_dict : Dict.t (option string)) (lang_code : string) : Py (list Z) :=
  bind (download_lang_file_binary e links_dict lang_code)
    (fun base64_lang_file => lift (Base64.b64decode base64_lang_file)).

(** The second command-line argument after [expanduser], when there is one. *)
Definition custom_argument (e : Env) : option string :=
  match argv e with
  | _ :: _ :: arg2 :: _ => Some (expanduser e arg2)
  | _ => None
  end.

Definition os_install_dir (e : Env) : string := expanduser e os_install_path.
Definition flatpak_install_dir (e : Env) : string :=
  expanduser e flatpak_install_path.


(** The same environment with another page parser, or another outcome of
    [open]. *)
Definition with_find_all (e : Env) (f : string -> list Anchor) : Env :=
  {| argv := argv e;
     requests_get := requests_get e;
     find_all := f;
     os_path_exists := os_path_exists e;
     expand_tilde := expand_tilde e;
     open_raises := open_raises e |}.

Definition with_open_raises (e : Env) (f : string -> bool) : Env :=
  {| argv := argv e;
     requests_get := requests_get e;
     find_all := find_all e;
     os_path_exists := os_path_exists e;
     expand_tilde := expand_tilde e;
     open_raises := f |}.

(** The first occurrences of the elements of a list, in order: what a dict
    filled key by key keeps of the sequence of its keys. *)
Definition first_occurrences (ks : list string) : list string :=
  foldl (fun seen k => if bool_decide (k ∈ seen) then seen else seen ++ [k])
    [] ks.





(** The closing message of a run that reaches the report (lines 164-178),
    read off the conditions in their priority order; the third branch,
    [msg_install_failed], needs [lang_file_installed] to be false there. *)
Definition expected_report (e : Env) : string :=
  let custom := custom_argument e in
  if truthy custom && negb (os_path_exists e (default "" custom))
  then msg_custom_missing
  else if negb (os_path_exists e (flatpak_install_dir e))
          && negb (os_path_exists e (os_install_dir e))
  then msg_no_config_dir
  else msg_success.

(** ** A concrete environment for examples *)

Module Example.

Definition en_GB : string := "en-GB-10-1".
Definition en_GB_href : string :=
  "/chromium/deps/hunspell_dictionaries/+/master/en-GB-10-1.bdic".
Definition fr_FR_href : string :=
  "/chromium/deps/hunspell_dictionaries/+/master/fr-FR-3-0.bdic".

Definition anchors : list Anchor :=
  [ {| link_text := "README.chromium";
       link_href := Some "/chromium/deps/hunspell_dictionaries/+/master/README.chromium" |};
    {| link_text := "en-GB-10-1.bdic"; link_href := Some en_GB_href |};
    {| link_text := "fr-FR-3-0.bdic"; link_href := Some fr_FR_href |} ].

(** A server that knows the listing page and one dictionary, whose
    base64 text is [body]; [listing_status] and [file_status] are the
    status codes it answers with. *)
Definition server (listing_status file_status : Z) (body : string)
    (url : string) : Response :=
  if bool_decide (url = listing_url)
  then {| status_code := listing_status; text := "<html>listing</html>" |}
  else if bool_decide (url = download_url (Some en_GB_href))
  then {| status_code := file_status; text := body |}
  else {| status_code := 404; text := "" |}.

Definition home : string := "/home/user".

(** [~/rest] becomes [/home/user/rest]. *)
Definition expand (path : string) : string :=
  match path with
  | String _ rest => home +:+ rest
  | EmptyString => EmptyString
  end.

Definition env (args existing : list string)
    (listing_status file_status : Z) (body : string) : Env :=
  {| argv := args;
     requests_get := server listing_status file_status body;
     find_all := fun _ => anchors;
     os_path_exists := fun path => bool_decide (path ∈ existing);
     expand_tilde := expand;
     open_raises := fun _ => false |}.

Definition os_dir : string := "/home/user/.config/chromium/Dictionaries/".
Definition flatpak_dir : string :=
  "/home/user/.var/app/com.github.Eloston.UngoogledChromium/config/chromium/Dictionaries/".
Definition custom_dir : string := "/tmp/dictionaries".

(** [b"ABC"] and its base64 text. *)
Definition payload : list Z := [65; 66; 67].
Definition payload_text : string := "QUJD".

Definition prog : string := "./spellcheck-installer.py".

End Example.

(** * Properties *)

(** ** Strings *)

Module StrFacts.
Import Str.

Lemma append_nil_r (s : string) : s +:+ "" = s.
Proof. induction s as [|c s IH]; [done|]. cbn. by rewrite IH. Qed.


Lemma length_append (a b : string) :
  String.length (a +:+ b) = (String.length a + String.length b)%nat.
Proof. induction a as [|x a IH]; [done|]. cbn. by rewrite IH. Qed.

Lemma startswith_spec (s p : string) :
  startswith s p = true <-> exists r, s = p +:+ r.
Proof.
  revert s. induction p as [|a p IH]; intros s; cbn.
  - split; [intros _; by exists s | done].
  - destruct s as [|b s]; cbn.
    + split; [done | intros [r Hr]; discriminate].
    + destruct (decide (a = b)) as [->|Hne].
      * rewrite IH. split; intros [r Hr]; exists r; [by rewrite Hr | by injection Hr].
      * split; [done | intros [r Hr]; injection Hr; congruence].
Qed.

Lemma endswith_spec (s suf : string) :
  endswith s suf = true <-> exists r, s = r +:+ suf.
Proof.
  induction s as [|c s IH]; cbn.
  - destruct (decide ("" = suf)) as [<-|Hne].
    + split; [intros _; by exists "" | done].
    + split; [done|]. intros [r Hr]. destruct r, suf; cbn in Hr; congruence.
  - destruct (decide (String c s = suf)) as [<-|Hne].
    + split; [intros _; by exists "" | done].
    + rewrite IH. split.
      * intros [r ->]. by exists (String c r).
      * intros [r Hr]. destruct r as [|c' r]; cbn in Hr; [congruence|].
        injection Hr as -> ->. by exists r.
Qed.

Lemma endswith_app (b suf : string) : endswith (b +:+ suf) suf = true.
Proof. apply endswith_spec. by exists b. Qed.

Lemma substring_app (b suf : string) :
  String.substring 0 (String.length b) (b +:+ suf) = b.
Proof.
  induction b as [|c b IH]; cbn.
  - by destruct suf.
  - by rewrite IH.
Qed.

Lemma removesuffix_app (b suf : string) : removesuffix (b +:+ suf) suf = b.
Proof.
  unfold removesuffix. rewrite endswith_app, length_append.
  replace (String.length b + String.length suf - String.length suf)%nat
    with (String.length b) by lia.
  apply substring_app.
Qed.

(** Once a whole occurrence is being skipped, nothing of it is kept. *)
Lemma replace_from_skip_all (old new s : string) (k : nat) :
  (String.length s <= k)%nat -> replace_from old new k s = "".
Proof.
  revert k. induction s as [|c s IH]; intros k Hk; [done|].
  cbn in Hk. destruct k as [|k]; [lia|]. cbn. apply IH. lia.
Qed.

(** When the only occurrence of [old] in [b +:+ old] is the trailing one,
    [replace] is [removesuffix]. *)
Lemma replace_from_only_suffix (old b : string) :
  old <> "" ->
  (forall pre post, b +:+ old = pre +:+ old +:+ post -> post = "") ->
  replace_from old "" 0 (b +:+ old) = b.
Proof.
  intros Hold. induction b as [|c b IH]; intros Honly.
  - cbn. destruct old as [|a old]; [done|]. cbn.
    rewrite decide_True by done.
    assert (startswith old old = true) as ->.
    { apply startswith_spec. exists "". by rewrite append_nil_r. }
    cbn. apply replace_from_skip_all. lia.
  - cbn. destruct (startswith (String c (b +:+ old)) old) eqn:Hsw.
    + apply startswith_spec in Hsw as [r Hr].
      assert (r = "") as ->.
      { apply (Honly "" r). cbn. exact Hr. }
      rewrite append_nil_r in Hr.
      apply (f_equal String.length) in Hr. cbn in Hr.
      rewrite length_append in Hr. lia.
    + f_equal. apply IH. intros pre post Heq.
      apply (Honly (String c pre) post). cbn. by rewrite Heq.
Qed.

End StrFacts.

(** ** The dictionary *)

Module DictFacts.

Section facts.
Context {V : Type}.
Implicit Types (d : Dict.t V) (k : string) (v : V).

Lemma get_set_eq d k v : Dict.get (Dict.set d k v) k = Some v.
Proof.
  induction d as [|[k' v'] d IH]; simpl.
  - by rewrite decide_True.
  - destruct (decide (k' = k)) as [->|Hne]; simpl.
    + by rewrite decide_True.
    + by rewrite decide_False.
Qed.

Lemma get_set_ne d k k' v :
  k <> k' -> Dict.get (Dict.set d k v) k' = Dict.get d k'.
Proof.
  intros Hne. induction d as [|[k0 v0] d IH]; simpl.
  - by rewrite decide_False.
  - destruct (decide (k0 = k)) as [->|Hne0]; simpl.
    + by rewrite !decide_False.
    + destruct (decide (k0 = k')); [done | exact IH].
Qed.

Lemma contains_true d k :
  Dict.contains d k = true <-> is_Some (Dict.get d k).
Proof.
  unfold Dict.contains. destruct (Dict.get d k); naive_solver.
Qed.

(** Setting a key never duplicates it: the keys stay pairwise distinct. *)
Lemma keys_set d k v :
  Dict.keys (Dict.set d k v) =
    if Dict.contains d k then Dict.keys d else Dict.keys d ++ [k].
Proof.
  unfold Dict.contains, Dict.keys.
  induction d as [|[k' v'] d IH]; csimpl; [done|].
  destruct (decide (k' = k)) as [->|Hne]; csimpl; [done|].
  rewrite IH. by destruct (Dict.get d k).
Qed.

Lemma elem_of_keys d k : k ∈ Dict.keys d <-> is_Some (Dict.get d k).
Proof.
  unfold Dict.keys. induction d as [|[k' v'] d IH]; csimpl.
  - split; [by intros ?%elem_of_nil | by intros [? ?]].
  - rewrite elem_of_cons, IH.
    destruct (decide (k' = k)) as [->|Hne].
    + split; [by eauto | by left].
    + split; [intros [?|?]; [congruence|done] | by right].
Qed.

Lemma NoDup_keys_set d k v :
  NoDup (Dict.keys d) -> NoDup (Dict.keys (Dict.set d k v)).
Proof.
  intros Hnd. rewrite keys_set.
  destruct (Dict.contains d k) eqn:Hc; [done|].
  apply NoDup_app. split_and!; [done | | apply NoDup_singleton].
  intros x Hx ->%list_elem_of_singleton.
  apply elem_of_keys, contains_true in Hx. congruence.
Qed.

End facts.

End DictFacts.

(** ** The listing *)

Module ListingFacts.
Import Str StrFacts DictFacts.

Lemma links_snoc (l : list Anchor) (a : Anchor) :
  links_of_anchors (l ++ [a]) =
    if link_kept a
    then Dict.set (links_of_anchors l) (link_key a) (link_href a)
    else links_of_anchors l.
Proof. unfold links_of_anchors. by rewrite foldl_app. Qed.

(** Every entry of the listing comes from a kept anchor. *)
Lemma links_get_inv (l : list Anchor) (k : string) (h : option string) :
  Dict.get (links_of_anchors l) k = Some h ->
  exists a, a ∈ l /\ link_kept a = true /\ link_key a = k /\ link_href a = h.
Proof.
  induction l as [|a l IH] using rev_ind; [done|].
  rewrite links_snoc. destruct (link_kept a) eqn:Hk.
  - destruct (decide (link_key a = k)) as [<-|Hne].
    + rewrite get_set_eq. intros [= <-]. exists a.
      split_and!; [|done..]. apply elem_of_app. right. apply list_elem_of_here.
    + rewrite get_set_ne by done. intros (b & Hb & ?)%IH. exists b.
      split; [|done]. apply elem_of_app. by left.
  - intros (b & Hb & ?)%IH. exists b.
    split; [|done]. apply elem_of_app. by left.
Qed.

(** Every kept anchor has its key in the listing. *)
Lemma links_get_kept (l : list Anchor) (a : Anchor) :
  a ∈ l -> link_kept a = true ->
  is_Some (Dict.get (links_of_anchors l) (link_key a)).
Proof.
  induction l as [|b l IH] using rev_ind; [by intros ?%elem_of_nil|].
  intros Hin Hk. rewrite links_snoc.
  apply elem_of_app in Hin as [Hin | ->%list_elem_of_singleton].
  - destruct (link_kept b); [|by apply IH].
    destruct (decide (link_key b = link_key a)) as [->|Hne].
    + rewrite get_set_eq. eauto.
    + rewrite get_set_ne by done. by apply IH.
  - rewrite Hk, get_set_eq. eauto.
Qed.

(** The anchors that are dropped leave no key behind, unless a kept anchor
    has the same key. *)
Lemma links_key_iff (l : list Anchor) (k : string) :
  Dict.contains (links_of_anchors l) k = true <->
  exists a, a ∈ l /\ link_kept a = true /\ link_key a = k.
Proof.
  rewrite contains_true. split.
  - intros [h (a & ? & ? & ? & ?)%links_get_inv]. eauto.
  - intros (a & Hin & Hk & <-). by apply links_get_kept.
Qed.

(** When the kept anchors have pairwise distinct keys, each key maps to
    the href of its anchor. *)
Lemma links_get_unique (l : list Anchor) (a : Anchor) :
  NoDup (link_key <$> filter (fun b => link_kept b = true) l) ->
  a ∈ l -> link_kept a = true ->
  Dict.get (links_of_anchors l) (link_key a) = Some (link_href a).
Proof.
  induction l as [|b l IH] using rev_ind; [by intros _ ?%elem_of_nil|].
  rewrite filter_app, fmap_app, links_snoc. intros Hnd Hin Hk.
  apply NoDup_app in Hnd as (Hl & Hdisj & _).
  apply elem_of_app in Hin as [Hin | ->%list_elem_of_singleton].
  - destruct (link_kept b) eqn:Hkb; [|by apply IH].
    rewrite get_set_ne; [by apply IH|].
    intros Heq. apply (Hdisj (link_key a)).
    + apply list_elem_of_fmap. exists a. split; [done|].
      by apply list_elem_of_filter.
    + rewrite filter_cons_True by done. rewrite <- Heq. apply list_elem_of_here.
  - by rewrite Hk, get_set_eq.
Qed.

Lemma NoDup_links_keys (l : list Anchor) :
  NoDup (Dict.keys (links_of_anchors l)).
Proof.
  induction l as [|a l IH] using rev_ind; [apply NoDup_nil_2|].
  rewrite links_snoc. destruct (link_kept a); [|done].
  by apply NoDup_keys_set.
Qed.

(** X20. The key of a label whose only occurrence of the extension is the
    trailing one is the label without the extension. *)
Lemma link_key_removesuffix (base : string) (h : option string) :
  (forall pre post, base +:+ file_ext = pre +:+ file_ext +:+ post -> post = "") ->
  link_key {| link_text := base +:+ file_ext; link_href := h |} =
    removesuffix (base +:+ file_ext) file_ext.
Proof.
  intros Honly. unfold link_key, replace. simpl.
  rewrite removesuffix_app. by apply replace_from_only_suffix.
Qed.

(** An instance of X20: the label of the French dictionary. *)
Example link_key_fr :
  link_key {| link_text := "fr" +:+ file_ext; link_href := None |} =
    removesuffix ("fr" +:+ file_ext) file_ext.
Proof.
  apply link_key_removesuffix. intros pre post.
  destruct pre as [|c1 [|c2 [|c3 [|c4 [|c5 [|c6 [|c7 pre]]]]]]];
    destruct post as [|d post]; try done;
    intros Heq; apply (f_equal String.length) in Heq; simpl in Heq;
    rewrite ?length_append in Heq; simpl in Heq; try lia; discriminate.
Defined.

End ListingFacts.

(** ** Base64 *)

Module Base64Facts.
Import Base64.

(** Checking a property of small integers by running through them. *)
Lemma below_ok (n : nat) (P : Z -> bool) :
  forallb P (below n) = true ->
  forall z, 0 <= z < Z.of_nat n -> P z = true.
Proof.
  intros Hall z Hz. rewrite forallb_forall in Hall. apply Hall.
  apply list_elem_of_In, list_elem_of_fmap. exists (Z.to_nat z).
  split; [lia|]. apply elem_of_seq. lia.
Qed.

Lemma below_ok2 (n m : nat) (P : Z -> Z -> bool) :
  forallb (fun x => forallb (P x) (below m)) (below n) = true ->
  forall x y, 0 <= x < Z.of_nat n -> 0 <= y < Z.of_nat m -> P x y = true.
Proof.
  intros Hall x y Hx Hy.
  apply (below_ok m (P x)); [|done].
  by apply (below_ok n (fun x => forallb (P x) (below m))).
Qed.

Lemma below_ok3 (n m k : nat) (P : Z -> Z -> Z -> bool) :
  forallb (fun x => forallb (fun y => forallb (P x y) (below k)) (below m))
    (below n) = true ->
  forall x y z, 0 <= x < Z.of_nat n -> 0 <= y < Z.of_nat m ->
    0 <= z < Z.of_nat k -> P x y z = true.
Proof.
  intros Hall x y z Hx Hy Hz.
  apply (below_ok k (P x y)); [|done].
  by apply (below_ok2 n m (fun x y => forallb (P x y) (below k))).
Qed.

(** Pieces of a byte. *)
Lemma shiftr_byte (b : Z) (n : Z) :
  is_byte b -> 0 <= n <= 8 -> 0 <= Z.shiftr b n < 2 ^ (8 - n).
Proof.
  intros [Hlo Hhi] Hn. rewrite Z.shiftr_div_pow2 by lia. split.
  - apply Z.div_pos; lia.
  - apply Z.div_lt_upper_bound; [lia|].
    rewrite <- Z.pow_add_r by lia. replace (n + (8 - n)) with 8 by lia. lia.
Qed.

Lemma land_ones_bound (b : Z) (n : Z) :
  0 <= n -> 0 <= Z.land b (Z.ones n) < 2 ^ n.
Proof. intros Hn. rewrite Z.land_ones by lia. apply Z.mod_pos_bound. lia. Qed.

(** The alphabet and the decoding table are inverse to each other. *)
Lemma table_alphabet (v : Z) :
  0 <= v < 64 ->
  table_a2b_base64 (alphabet v) = Some v
  /\ alphabet v <> BASE64_PAD
  /\ Z.of_N (N_of_ascii (alphabet v)) < 128.
Proof.
  intros Hv.
  pose (P := fun v =>
    bool_decide (table_a2b_base64 (alphabet v) = Some v)
    && bool_decide (alphabet v <> BASE64_PAD)
    && (Z.of_N (N_of_ascii (alphabet v)) <? 128)).
  assert (P v = true) as HP by (by apply (below_ok 64); [vm_compute|]).
  unfold P in HP. rewrite !andb_true_iff, !bool_decide_eq_true in HP.
  destruct HP as [[? ?] ?]. split_and!; [done..|lia].
Qed.

(** The sextets are 6-bit values. *)
Lemma land_3 (a : Z) : 0 <= Z.land a 3 < 4.
Proof. exact (land_ones_bound a 2 ltac:(lia)). Qed.

Lemma land_15 (a : Z) : 0 <= Z.land a 15 < 16.
Proof. exact (land_ones_bound a 4 ltac:(lia)). Qed.

Lemma lor_small (x h : Z) (n m : nat) (k : Z) :
  forallb (fun x => forallb (fun h => Z.lor (Z.shiftl x k) h <? 64) (below m))
    (below n) = true ->
  0 <= x < Z.of_nat n -> 0 <= h < Z.of_nat m ->
  0 <= Z.lor (Z.shiftl x k) h < 64.
Proof.
  intros Hall Hx Hh. split.
  - apply Z.lor_nonneg. split; [apply Z.shiftl_nonneg|]; lia.
  - apply Z.ltb_lt.
    by apply (below_ok2 n m (fun x h => Z.lor (Z.shiftl x k) h <? 64)).
Qed.

Lemma sextet0_bound (a : Z) : is_byte a -> 0 <= sextet0 a < 64.
Proof. intros Ha. exact (shiftr_byte a 2 Ha ltac:(lia)). Qed.

Lemma sextet1_bound (a b : Z) : is_byte b -> 0 <= sextet1 a b < 64.
Proof.
  intros Hb. unfold sextet1.
  apply (lor_small _ _ 4 16); [by vm_compute | apply land_3 |].
  exact (shiftr_byte b 4 Hb ltac:(lia)).
Qed.

Lemma sextet2_bound (b c : Z) : is_byte c -> 0 <= sextet2 b c < 64.
Proof.
  intros Hc. unfold sextet2.
  apply (lor_small _ _ 16 4); [by vm_compute | apply land_15 |].
  exact (shiftr_byte c 6 Hc ltac:(lia)).
Qed.

Lemma sextet3_bound (c : Z) : 0 <= sextet3 c < 64.
Proof. exact (land_ones_bound c 6 ltac:(lia)). Qed.

Lemma is_byte_0 : is_byte 0.
Proof. unfold is_byte. lia. Qed.

(** Putting the sextets back together gives the bytes. *)
Lemma byte0_of_sextets (a b : Z) :
  is_byte a -> is_byte b ->
  Z.lor (Z.shiftl (sextet0 a) 2) (Z.shiftr (sextet1 a b) 4) = a.
Proof.
  intros Ha Hb. unfold sextet0, sextet1.
  pose (P := fun a h =>
    Z.lor (Z.shiftl (Z.shiftr a 2) 2)
      (Z.shiftr (Z.lor (Z.shiftl (Z.land a 3) 4) h) 4) =? a).
  apply Z.eqb_eq. apply (below_ok2 256 16 P); [by vm_compute | exact Ha |].
  exact (shiftr_byte b 4 Hb ltac:(lia)).
Qed.

Lemma byte1_of_sextets (a b c : Z) :
  is_byte b -> is_byte c ->
  Z.lor (Z.shiftl (Z.land (sextet1 a b) 15) 4) (Z.shiftr (sextet2 b c) 2) = b.
Proof.
  intros Hb Hc. unfold sextet1, sextet2.
  pose (P := fun x b z =>
    Z.lor (Z.shiftl (Z.land (Z.lor (Z.shiftl x 4) (Z.shiftr b 4)) 15) 4)
      (Z.shiftr (Z.lor (Z.shiftl (Z.land b 15) 2) z) 2) =? b).
  apply Z.eqb_eq.
  apply (below_ok3 4 256 4 P); [by vm_compute | apply land_3 | exact Hb |].
  exact (shiftr_byte c 6 Hc ltac:(lia)).
Qed.

Lemma byte2_of_sextets (b c : Z) :
  is_byte c ->
  Z.lor (Z.shiftl (Z.land (sextet2 b c) 3) 6) (sextet3 c) = c.
Proof.
  intros Hc. unfold sextet2, sextet3.
  pose (P := fun y c =>
    Z.lor (Z.shiftl (Z.land (Z.lor (Z.shiftl y 2) (Z.shiftr c 6)) 3) 6)
      (Z.land c 63) =? c).
  apply Z.eqb_eq.
  apply (below_ok2 16 256 P); [by vm_compute | apply land_15 | exact Hc].
Qed.

(** One character of the alphabet moves the decoder one position on. *)
Lemma a2b_loop_alphabet (v : Z) (s : string) (quad_pos : nat)
    (leftchar : Z) (pads : nat) :
  0 <= v < 64 ->
  a2b_loop (String (alphabet v) s) quad_pos leftchar pads =
    match quad_pos with
    | 0%nat => a2b_loop s 1 v 0
    | 1%nat =>
        emit (Z.lor (Z.shiftl leftchar 2) (Z.shiftr v 4))
          (a2b_loop s 2 (Z.land v 15) 0)
    | 2%nat =>
        emit (Z.lor (Z.shiftl leftchar 4) (Z.shiftr v 2))
          (a2b_loop s 3 (Z.land v 3) 0)
    | _ => emit (Z.lor (Z.shiftl leftchar 6) v) (a2b_loop s 0 0 0)
    end.
Proof.
  intros (Htab & Hpad & _)%table_alphabet. simpl.
  by rewrite decide_False, Htab.
Qed.

(** A character that is neither in the alphabet nor the padding character
    is skipped, in every state of the decoder. *)
Lemma a2b_loop_skip (c : ascii) (s : string) (quad_pos : nat)
    (leftchar : Z) (pads : nat) :
  in_alphabet c || is_pad c = false ->
  a2b_loop (String c s) quad_pos leftchar pads =
    a2b_loop s quad_pos leftchar pads.
Proof.
  unfold in_alphabet, is_pad. intros [Ha Hp]%orb_false_iff.
  apply bool_decide_eq_false in Hp. simpl. rewrite decide_False by done.
  by destruct (table_a2b_base64 c).
Qed.

Lemma a2b_loop_strip (s : string) (quad_pos : nat) (leftchar : Z) (pads : nat) :
  a2b_loop (strip s) quad_pos leftchar pads = a2b_loop s quad_pos leftchar pads.
Proof.
  revert quad_pos leftchar pads.
  induction s as [|c s IH]; intros quad_pos leftchar pads; [done|].
  cbn [strip]. destruct (in_alphabet c || is_pad c) eqn:Hc.
  - cbn [a2b_loop]. rewrite !IH.
    destruct (decide (c = BASE64_PAD)); [by repeat case_match|].
    destruct (table_a2b_base64 c); [|done].
    by destruct quad_pos as [|[|[|?]]]; rewrite ?IH.
  - by rewrite a2b_loop_skip, IH.
Qed.

Lemma is_ascii_strip (s : string) : is_ascii s = true -> is_ascii (strip s) = true.
Proof.
  induction s as [|c s IH]; [done|]. simpl.
  intros [Hc Hs]%andb_true_iff. destruct (in_alphabet c || is_pad c); simpl.
  - rewrite Hc. by apply IH.
  - by apply IH.
Qed.

(** The characters the decoder skips do not change what it returns. *)
Lemma b64decode_strip (s : string) :
  is_ascii s = true -> b64decode (strip s) = b64decode s.
Proof.
  intros Hs. unfold b64decode, a2b_base64.
  by rewrite Hs, (is_ascii_strip s Hs), a2b_loop_strip.
Qed.

(** Decoding the encoding of a list of bytes gives the list back. *)
Lemma a2b_loop_b64encode (n : nat) (bs : list Z) :
  (length bs <= n)%nat -> Forall is_byte bs ->
  a2b_loop (b64encode bs) 0 0 0 = inr bs.
Proof.
  revert bs. induction n as [n IH] using lt_wf_ind. intros bs Hlen Hbs.
  destruct bs as [|a [|b [|c rest]]]; [done|..].
  - apply Forall_cons in Hbs as [Ha _].
    cbn [b64encode].
    rewrite !a2b_loop_alphabet
      by auto using sextet0_bound, sextet1_bound, is_byte_0.
    simpl. by rewrite (byte0_of_sextets a 0 Ha is_byte_0).
  - apply Forall_cons in Hbs as [Ha [Hb _]%Forall_cons].
    cbn [b64encode].
    rewrite !a2b_loop_alphabet
      by auto using sextet0_bound, sextet1_bound, sextet2_bound, is_byte_0.
    simpl.
    by rewrite (byte0_of_sextets a b Ha Hb),
      (byte1_of_sextets a b 0 Hb is_byte_0).
  - apply Forall_cons in Hbs as [Ha [Hb [Hc Hrest]%Forall_cons]%Forall_cons].
    cbn [b64encode].
    rewrite !a2b_loop_alphabet
      by auto using sextet0_bound, sextet1_bound, sextet2_bound, sextet3_bound.
    rewrite (IH (length rest)); [|simpl in Hlen; lia|done|done].
    simpl.
    by rewrite (byte0_of_sextets a b Ha Hb), (byte1_of_sextets a b c Hb Hc),
      (byte2_of_sextets b c Hc).
Qed.

Lemma is_ascii_alphabet (v : Z) (s : string) :
  0 <= v < 64 -> is_ascii (String (alphabet v) s) = is_ascii s.
Proof.
  intros (_ & _ & Hlt)%table_alphabet. simpl.
  by apply Z.ltb_lt in Hlt as ->.
Qed.

Lemma is_ascii_b64encode (n : nat) (bs : list Z) :
  (length bs <= n)%nat -> Forall is_byte bs -> is_ascii (b64encode bs) = true.
Proof.
  revert bs. induction n as [n IH] using lt_wf_ind. intros bs Hlen Hbs.
  destruct bs as [|a [|b [|c rest]]]; [done|..].
  - apply Forall_cons in Hbs as [Ha _]. cbn [b64encode].
    by rewrite !is_ascii_alphabet
      by auto using sextet0_bound, sextet1_bound, is_byte_0.
  - apply Forall_cons in Hbs as [Ha [Hb _]%Forall_cons]. cbn [b64encode].
    by rewrite !is_ascii_alphabet
      by auto using sextet0_bound, sextet1_bound, sextet2_bound, is_byte_0.
  - apply Forall_cons in Hbs as [Ha [Hb [Hc Hrest]%Forall_cons]%Forall_cons].
    cbn [b64encode].
    rewrite !is_ascii_alphabet
      by auto using sextet0_bound, sextet1_bound, sextet2_bound, sextet3_bound.
    apply (IH (length rest)); [simpl in Hlen; lia|done|done].
Qed.

Lemma in_alphabet_alphabet (v : Z) : 0 <= v < 64 -> in_alphabet (alphabet v) = true.
Proof. intros (Htab & _)%table_alphabet. unfold in_alphabet. by rewrite Htab. Qed.

(** What the encoder produces is well formed. *)
Lemma well_formed_b64encode (n : nat) (bs : list Z) :
  (length bs <= n)%nat -> Forall is_byte bs -> well_formed (b64encode bs) = true.
Proof.
  revert bs. induction n as [n IH] using lt_wf_ind. intros bs Hlen Hbs.
  destruct bs as [|a [|b [|c rest]]]; [done|..].
  - apply Forall_cons in Hbs as [Ha _]. cbn [b64encode well_formed].
    by rewrite !in_alphabet_alphabet
      by auto using sextet0_bound, sextet1_bound, is_byte_0.
  - apply Forall_cons in Hbs as [Ha [Hb _]%Forall_cons].
    cbn [b64encode well_formed].
    by rewrite !in_alphabet_alphabet
      by auto using sextet0_bound, sextet1_bound, sextet2_bound, is_byte_0.
  - apply Forall_cons in Hbs as [Ha [Hb [Hc Hrest]%Forall_cons]%Forall_cons].
    cbn [b64encode well_formed].
    rewrite !in_alphabet_alphabet
      by auto using sextet0_bound, sextet1_bound, sextet2_bound, sextet3_bound.
    rewrite (IH (length rest)); [done|simpl in Hlen; lia|done|done].
Qed.

Lemma b64decode_b64encode (bs : list Z) :
  Forall is_byte bs -> b64decode (b64encode bs) = inr bs.
Proof.
  intros Hbs. unfold b64decode, a2b_base64.
  rewrite (is_ascii_b64encode (length bs)) by done.
  by apply (a2b_loop_b64encode (length bs)).
Qed.

End Base64Facts.

(** ** Running the script *)

(* Keep paths and texts folded while a run is simplified. *)
Local Arguments dictionary_file_path : simpl never.
Local Arguments os_path_join : simpl never.
Local Arguments expanduser : simpl never.
Local Arguments msg_saved : simpl never.
Local Arguments msg_using_custom : simpl never.
Local Arguments msg_failed_to_load : simpl never.
Local Arguments download_url : simpl never.

Lemma status_200 (r : Response) :
  status_code r = 200 -> bool_decide (status_code r ≠ 200) = false.
Proof. intros H. by apply bool_decide_eq_false_2; intros Hne. Qed.

Lemma status_not_200 (r : Response) :
  status_code r <> 200 -> bool_decide (status_code r ≠ 200) = true.
Proof. intros H. by apply bool_decide_eq_true_2. Qed.

Lemma contains_of_get {V} (d : Dict.t V) (k : string) (v : V) :
  Dict.get d k = Some v -> Dict.contains d k = true.
Proof. unfold Dict.contains. by intros ->. Qed.

Ltac py_unfold :=
  unfold main, download, get_lang_file_links, download_lang_file_binary,
    install_lang_file, print_available, write_binary, http_get, print,
    lift, bind, ret, raise, listing in *.

(** Two texts that differ in their first character. *)
Ltac other_text :=
  let H := fresh in
  intros H;
  first [ discriminate H
        | injection H; unfold msg_using_custom, msg_saved; cbn; discriminate ].

(** One case distinction of a run: on a status, a lookup, the decoding, the
    emptiness of the custom directory, the existence of a path or the
    outcome of [open]. *)
Ltac run_case :=
  match goal with
  | |- context [bool_decide (status_code ?r ≠ 200)] =>
      destruct (bool_decide (status_code r ≠ 200)) eqn:?
  | |- context [Dict.contains ?d ?k] => destruct (Dict.contains d k) eqn:?
  | |- context [Dict.get ?d ?k] => destruct (Dict.get d k) eqn:?
  | |- context [Base64.b64decode ?t] => destruct (Base64.b64decode t) eqn:?
  | |- context [bool_decide (?s = "")] => destruct (bool_decide (s = "")) eqn:?
  | |- context [os_path_exists ?e ?p] => destruct (os_path_exists e p) eqn:?
  | |- context [open_raises ?e ?p] => destruct (open_raises e p) eqn:?
  end; simpl.

Ltac not_printed :=
  simpl;
  repeat (apply not_elem_of_cons; split; [other_text|]);
  apply not_elem_of_nil.

(** C6. An unknown name: one request (the listing), no write, the error and
    the available names on standard output, and a normal return. *)
Theorem unknown_name_is_reported
    (e : Env) (w : World) (prog lang_code : string) (rest : list string) :
  argv e = prog :: lang_code :: rest ->
  status_code (requests_get e listing_url) = 200 ->
  Dict.contains (listing e) lang_code = false ->
  main e w =
    (inr None,
     {| files := files w;
        requests := requests w ++ [listing_url];
        writes := writes w;
        stdout := stdout w ++
          [Line msg_unavailable;
           Line (LF +:+ "Available language file names:");
           ReprList (Dict.keys (listing e));
           Line (LF +:+ "Example usage:" +:+ LF +:+ TAB +:+
                 "./spellcheck-installer.py en-GB-10-1")] |}).
Proof.
  intros Hargv Hok Hnot. py_unfold. simpl.
  rewrite (status_200 _ Hok), Hargv, Hnot. simpl.
  by rewrite <- !app_assoc.
Qed.

(** An instance of C6: the name [xx-YY] against a listing of two dictionaries. *)
Lemma unknown_name_is_reported_witness :
  let e := Example.env [Example.prog; "xx-YY"] [Example.os_dir] 200 200
             Example.payload_text in
  Dict.contains (listing e) "xx-YY" = false /\
  (main e (initial ∅)).1 = inr None /\
  requests (main e (initial ∅)).2 = [listing_url] /\
  writes (main e (initial ∅)).2 = [] /\
  stdout (main e (initial ∅)).2 =
    [Line msg_unavailable;
     Line (LF +:+ "Available language file names:");
     ReprList ["en-GB-10-1"; "fr-FR-3-0"];
     Line (LF +:+ "Example usage:" +:+ LF +:+ TAB +:+
           "./spellcheck-installer.py en-GB-10-1")].
Proof.
  intros e.
  assert (Hrun := unknown_name_is_reported e (initial ∅) Example.prog "xx-YY" []
                    eq_refl eq_refl eq_refl).
  rewrite Hrun. repeat split; reflexivity.
Defined.












(** C9. [install_lang_file] returns [True] or raises, and no run prints the
    "found but could not be installed" message. *)
Theorem install_failed_message_is_never_printed
    (e : Env) (w : World) (lang_code directory : string) (payload : list Z)
    (fs : gmap string (list Z)) :
  ((install_lang_file e lang_code payload directory w).1 = inr true
   \/ (install_lang_file e lang_code payload directory w).1 =
        inl (OSError (dictionary_file_path directory lang_code)))
  /\ Line msg_install_failed ∉ stdout (main e (initial fs)).2.
Proof.
  split.
  - py_unfold. simpl. destruct (open_raises e _); simpl; auto.
  - py_unfold. simpl.
    destruct (argv e) as [|prog [|name [|arg2 more]]]; simpl;
      repeat run_case; not_printed.
Qed.

(** The closing message of a complete run is the one the priority order of
    the report selects; "found but could not be installed" is not among
    the outcomes. *)
Lemma main_report (e : Env) (w : World)
    (links_dict : Dict.t (option string)) (w' : World) :
  main e w = (inr (Some links_dict), w') ->
  last (stdout w') = Some (Line (expected_report e)).
Proof.
  unfold expected_report, custom_argument, os_install_dir, flatpak_install_dir.
  py_unfold. simpl.
  destruct (argv e) as [|prog [|name [|arg2 more]]]; simpl;
    repeat run_case; intros [= <- <-]; simpl;
    by rewrite last_snoc.
Qed.






(** ** The claims that the code does not meet *)

(** C1. A custom directory that exists is installed into, and the run then
    reports that no chromium configuration directory was found, whenever
    neither conventional directory exists. *)
Theorem custom_install_reports_no_configuration_directory
    (e : Env) (w w' : World) (prog lang_code arg2 : string) (more : list string)
    (links_dict : Dict.t (option string)) :
  argv e = prog :: lang_code :: arg2 :: more ->
  expanduser e arg2 <> "" ->
  os_path_exists e (expanduser e arg2) = true ->
  os_path_exists e (os_install_dir e) = false ->
  os_path_exists e (flatpak_install_dir e) = false ->
  main e w = (inr (Some links_dict), w') ->
  last (stdout w') = Some (Line msg_no_config_dir)
  /\ exists payload,
       writes w' =
         writes w ++ [(dictionary_file_path (expanduser e arg2) lang_code, payload)].
Proof.
  intros Hargv Hne Hcustom Hos Hflat Hrun. split.
  - rewrite (main_report _ _ _ _ Hrun).
    unfold expected_report, custom_argument. rewrite Hargv. simpl.
    by rewrite Hcustom, Hos, Hflat, andb_false_r.
  - assert (bool_decide (expanduser e arg2 = "") = false) as Hb
      by (by apply bool_decide_eq_false_2).
    revert Hrun. unfold os_install_dir, flatpak_install_dir in *.
    py_unfold. simpl. rewrite Hargv. simpl. rewrite ?Hb, ?Hcustom. simpl.
    repeat run_case; intros [= <- <-]; simpl; eauto.
Qed.

(** An instance of C1: only the custom directory exists. *)
Lemma custom_install_reports_no_configuration_directory_witness :
  let e := Example.env [Example.prog; Example.en_GB; Example.custom_dir]
             [Example.custom_dir] 200 200 Example.payload_text in
  (main e (initial ∅)).1 = inr (Some (listing e))
  /\ stdout (main e (initial ∅)).2 =
       [Line (msg_using_custom Example.custom_dir);
        Line (msg_saved Example.en_GB "/tmp/dictionaries/en-GB-10-1.bdic");
        Line msg_no_config_dir]
  /\ last (stdout (main e (initial ∅)).2) = Some (Line msg_no_config_dir)
  /\ exists payload,
       writes (main e (initial ∅)).2 =
         [] ++ [(dictionary_file_path Example.custom_dir Example.en_GB, payload)].
Proof.
  intros e. split; [reflexivity|]. split; [reflexivity|].
  refine (custom_install_reports_no_configuration_directory e (initial ∅)
            (main e (initial ∅)).2 Example.prog Example.en_GB Example.custom_dir []
            (listing e) eq_refl _ eq_refl eq_refl eq_refl eq_refl).
  vm_compute. discriminate.
Defined.

(** C4. The run with an empty second argument: the argument is a custom
    directory that does not exist; the run prints the notice that the
    detected directories will be ignored, writes the file into both of
    them and ends with the success message, not with the "custom directory
    missing" message. *)
Lemma empty_custom_argument_writes_to_conventional_directories :
  let e := Example.env [Example.prog; Example.en_GB; ""]
             [Example.os_dir; Example.flatpak_dir] 200 200
             Example.payload_text in
  let os_file := Example.os_dir +:+ "en-GB-10-1.bdic" in
  let flatpak_file := Example.flatpak_dir +:+ "en-GB-10-1.bdic" in
  custom_argument e = Some ""
  /\ os_path_exists e "" = false
  /\ (main e (initial ∅)).1 = inr (Some (listing e))
  /\ writes (main e (initial ∅)).2 =
       [(os_file, Example.payload); (flatpak_file, Example.payload)]
  /\ stdout (main e (initial ∅)).2 =
       [Line (msg_using_custom "");
        Line (msg_saved Example.en_GB os_file);
        Line (msg_saved Example.en_GB flatpak_file);
        Line msg_success].
Proof. repeat split. Qed.

(** C2. [replace] removes every occurrence of the extension, not only the
    trailing one: an interior occurrence is lost from the key, and two
    labels can then share a key, the later anchor taking the entry. *)
Theorem link_key_drops_interior_extension :
  let backup := {| link_text := "en-US.bdic.old.bdic";
                   link_href := Some "/+/master/en-US.bdic.old.bdic" |} in
  let first := {| link_text := "en-US.bdic.bdic";
                  link_href := Some "/+/master/en-US.bdic.bdic" |} in
  let second := {| link_text := "en-US.bdic"; link_href := Some "/+/master/en-US.bdic" |} in
  link_kept backup = true
  /\ link_key backup = "en-US.old"
  /\ Str.removesuffix (link_text backup) file_ext = "en-US.bdic.old"
  /\ links_of_anchors [backup] = [("en-US.old", link_href backup)]
  /\ links_of_anchors [first; second] = [("en-US", link_href second)].
Proof. repeat split. Qed.




(** * Further properties of the script *)

(** ** The listing *)

(** X2. The names of the listing are pairwise distinct, and a name is in
    the listing exactly when it is the key of an anchor whose label ends
    with the extension. *)
Theorem listing_names_are_distinct (file_links : list Anchor) (k : string) :
  NoDup (Dict.keys (links_of_anchors file_links))
  /\ (k ∈ Dict.keys (links_of_anchors file_links) <->
      exists a, a ∈ file_links /\ link_kept a = true /\ link_key a = k).
Proof.
  split; [apply ListingFacts.NoDup_links_keys|].
  rewrite DictFacts.elem_of_keys, <- DictFacts.contains_true.
  apply ListingFacts.links_key_iff.
Qed.

Lemma first_occurrences_snoc (ks : list string) (k : string) :
  first_occurrences (ks ++ [k]) =
    if bool_decide (k ∈ first_occurrences ks)
    then first_occurrences ks else first_occurrences ks ++ [k].
Proof. unfold first_occurrences. by rewrite foldl_app. Qed.

(** X3. The names are listed in page order: each name stands where the
    first kept anchor with that key stands among the kept anchors. *)
Theorem listing_names_in_page_order (file_links : list Anchor) :
  Dict.keys (links_of_anchors file_links) =
    first_occurrences (link_key <$> filter (fun a => link_kept a = true) file_links).
Proof.
  induction file_links as [|a l IH] using rev_ind; [done|].
  rewrite ListingFacts.links_snoc, filter_app, fmap_app.
  destruct (link_kept a) eqn:Hk.
  - rewrite filter_cons_True by done. rewrite filter_nil. simpl.
    rewrite first_occurrences_snoc, <- IH, DictFacts.keys_set.
    unfold Dict.contains.
    destruct (Dict.get (links_of_anchors l) (link_key a)) eqn:Hget.
    + rewrite bool_decide_eq_true_2; [done|].
      apply DictFacts.elem_of_keys. by rewrite Hget.
    + rewrite bool_decide_eq_false_2; [done|].
      intros Hin%DictFacts.elem_of_keys. rewrite Hget in Hin. by destruct Hin.
  - rewrite filter_cons_False by (by rewrite Hk). rewrite filter_nil. simpl.
    by rewrite app_nil_r.
Qed.

(** X4. Of several anchors with the same key the last one gives the entry:
    an anchor after which no kept anchor has its key is the one found. *)
Theorem later_anchor_takes_the_entry
    (before after : list Anchor) (a : Anchor) :
  link_kept a = true ->
  (forall b, b ∈ after -> link_kept b = true -> link_key b <> link_key a) ->
  Dict.get (links_of_anchors (before ++ a :: after)) (link_key a) =
    Some (link_href a).
Proof.
  intros Hk. induction after as [|b after IH] using rev_ind; intros Hlast.
  - by rewrite ListingFacts.links_snoc, Hk, DictFacts.get_set_eq.
  - replace (before ++ a :: after ++ [b]) with ((before ++ a :: after) ++ [b])
      by (by rewrite <- app_assoc).
    rewrite ListingFacts.links_snoc.
    assert (Dict.get (links_of_anchors (before ++ a :: after)) (link_key a) =
              Some (link_href a)) as Hget.
    { apply IH. intros c Hc. apply Hlast. apply elem_of_app. by left. }
    destruct (link_kept b) eqn:Hkb; [|done].
    rewrite DictFacts.get_set_ne; [done|].
    apply Hlast; [|done]. apply elem_of_app. right. apply list_elem_of_here.
Qed.

(** An instance of X4: the page lists the same file twice. *)
Lemma later_anchor_takes_the_entry_witness :
  let old := {| link_text := "de-DE.bdic"; link_href := Some "/old/de-DE.bdic" |} in
  let new := {| link_text := "de-DE.bdic"; link_href := Some "/new/de-DE.bdic" |} in
  let other := {| link_text := "README"; link_href := None |} in
  Dict.get (links_of_anchors ([old] ++ new :: [other])) "de-DE" =
    Some (Some "/new/de-DE.bdic").
Proof.
  intros old new other.
  refine (later_anchor_takes_the_entry [old] [other] new eq_refl _).
  intros b Hb Hkept.
  apply list_elem_of_singleton in Hb. subst b. discriminate Hkept.
Defined.

(** X5. The anchors whose label does not end with the extension could as
    well be absent from the page. *)
Theorem dropped_anchors_do_not_matter (file_links : list Anchor) :
  links_of_anchors (filter (fun a => link_kept a = true) file_links) =
    links_of_anchors file_links.
Proof.
  induction file_links as [|a l IH] using rev_ind; [done|].
  rewrite filter_app, ListingFacts.links_snoc.
  destruct (link_kept a) eqn:Hk.
  - rewrite filter_cons_True by done. rewrite filter_nil.
    by rewrite ListingFacts.links_snoc, Hk, IH.
  - rewrite filter_cons_False by (by rewrite Hk). rewrite filter_nil.
    by rewrite app_nil_r.
Qed.

(** ** Runs without a usable name *)

(** X1. Without a first argument the run asks for the listing, prints the
    usage line and the available names, writes nothing and returns. *)
Theorem no_argument_lists_the_names (e : Env) (w : World) :
  (length (argv e) < 2)%nat ->
  status_code (requests_get e listing_url) = 200 ->
  main e w =
    (inr None,
     {| files := files w;
        requests := requests w ++ [listing_url];
        writes := writes w;
        stdout := stdout w ++
          [Line msg_usage;
           Line (LF +:+ "Available language file names:");
           ReprList (Dict.keys (listing e));
           Line (LF +:+ "Example usage:" +:+ LF +:+ TAB +:+
                 "./spellcheck-installer.py en-GB-10-1")] |}).
Proof.
  intros Hlen Hok. py_unfold. simpl. rewrite (status_200 _ Hok).
  destruct (argv e) as [|prog [|name rest]]; simpl in *; try lia;
    by rewrite <- !app_assoc.
Qed.

(** An instance of X1: the script is called on its own. *)
Lemma no_argument_lists_the_names_witness :
  let e := Example.env [Example.prog] [Example.os_dir] 200 200
             Example.payload_text in
  main e (initial ∅) =
    (inr None,
     {| files := ∅;
        requests := [listing_url];
        writes := [];
        stdout :=
          [Line msg_usage;
           Line (LF +:+ "Available language file names:");
           ReprList ["en-GB-10-1"; "fr-FR-3-0"];
           Line (LF +:+ "Example usage:" +:+ LF +:+ TAB +:+
                 "./spellcheck-installer.py en-GB-10-1")] |}).
Proof.
  intros e.
  refine (no_argument_lists_the_names e (initial ∅) _ eq_refl).
  simpl. lia.
Defined.

Lemma links_of_anchors_none_kept (file_links : list Anchor) :
  Forall (fun a => link_kept a = false) file_links ->
  links_of_anchors file_links = [].
Proof.
  induction file_links as [|a l IH] using rev_ind; [done|].
  intros [Hl Ha%Forall_inv]%Forall_app. simpl in Ha.
  rewrite ListingFacts.links_snoc, Ha. by apply IH.
Qed.

(** X6. A page on which no label ends with the extension gives an empty
    listing: every name is then unknown, and the list of names printed is
    empty. *)
Theorem empty_listing_knows_no_name
    (e : Env) (w : World) (prog lang_code : string) (rest : list string) :
  argv e = prog :: lang_code :: rest ->
  status_code (requests_get e listing_url) = 200 ->
  Forall (fun a => link_kept a = false)
    (find_all e (text (requests_get e listing_url))) ->
  listing e = [] /\
  main e w =
    (inr None,
     {| files := files w;
        requests := requests w ++ [listing_url];
        writes := writes w;
        stdout := stdout w ++
          [Line msg_unavailable;
           Line (LF +:+ "Available language file names:");
           ReprList [];
           Line (LF +:+ "Example usage:" +:+ LF +:+ TAB +:+
                 "./spellcheck-installer.py en-GB-10-1")] |}).
Proof.
  intros Hargv Hok Hnone.
  assert (listing e = []) as Hempty
    by (by apply links_of_anchors_none_kept).
  split; [done|].
  py_unfold. simpl. rewrite (status_200 _ Hok), Hargv.
  unfold listing in Hempty. rewrite Hempty. simpl.
  by rewrite <- !app_assoc.
Qed.

(** An instance of X6: the page links to two text files only. *)
Lemma empty_listing_knows_no_name_witness :
  let e := with_find_all
             (Example.env [Example.prog; Example.en_GB] [Example.os_dir] 200 200
                Example.payload_text)
             (fun _ => [ {| link_text := "README.chromium"; link_href := Some "/a" |};
                         {| link_text := "LICENSE"; link_href := Some "/b" |} ]) in
  listing e = [] /\ (main e (initial ∅)).1 = inr None
  /\ requests (main e (initial ∅)).2 = [listing_url].
Proof.
  intros e.
  destruct (empty_listing_knows_no_name e (initial ∅) Example.prog Example.en_GB []
              eq_refl eq_refl) as [Hempty Hrun].
  { repeat constructor. }
  rewrite Hrun. by repeat split.
Defined.

(** ** What a run requests and raises *)

(** X7. Every run requests the listing first; it requests at most one more
    URL, the one of the entry selected on the command line, and never the
    URL of another entry. *)
Theorem requests_of_a_run (e : Env) (w : World) :
  requests (main e w).2 = requests w ++ [listing_url]
  \/ exists prog lang_code rest href,
       argv e = prog :: lang_code :: rest
       /\ Dict.get (listing e) lang_code = Some href
       /\ requests (main e w).2 = requests w ++ [listing_url; download_url href].
Proof.
  py_unfold. simpl.
  destruct (argv e) as [|prog [|name [|arg2 more]]] eqn:Hargv; simpl;
    repeat run_case;
    first [ by left
          | right; eexists _, _, _, _; split; [reflexivity|];
            split; [eassumption|]; by rewrite <- ?app_assoc ].
Qed.

(** What the decoder raises is a [binascii.Error], or the [ValueError] for a
    body that is not ASCII. *)
Lemma a2b_loop_raises (s : string) (quad_pos : nat) (leftchar : Z)
    (pads : nat) (ex : Exn) :
  Base64.a2b_loop s quad_pos leftchar pads = inl ex ->
  exists msg, ex = BinasciiError msg.
Proof.
  revert quad_pos leftchar pads.
  induction s as [|c s IH]; intros quad_pos leftchar pads.
  - simpl. destruct quad_pos as [|[|?]]; [done|..]; intros [= <-]; eauto.
  - cbn [Base64.a2b_loop]. destruct (decide (c = Base64.BASE64_PAD)).
    { repeat case_match; try done; apply IH. }
    destruct (Base64.table_a2b_base64 c) as [v|]; [|apply IH].
    destruct quad_pos as [|[|[|?]]]; [apply IH|..];
      unfold Base64.emit;
      (destruct (Base64.a2b_loop s _ _ _) as [ex'|bs] eqn:Hrest; [|done]);
      intros [= <-]; by apply IH in Hrest.
Qed.

Lemma b64decode_raises (s : string) (ex : Exn) :
  Base64.b64decode s = inl ex ->
  (exists msg, ex = ValueError msg) \/ (exists msg, ex = BinasciiError msg).
Proof.
  unfold Base64.b64decode, Base64.a2b_base64. destruct (Base64.is_ascii s).
  - intros ?%a2b_loop_raises. by right.
  - intros [= <-]. left. eauto.
Qed.

(** X8. The lookup [links_dict[lang_code]] of [download_lang_file_binary]
    never fails in a run: [main] returns early for a name that is not in
    the listing, so no run ends with the [KeyError] of that lookup, whatever
    the page and the command line are. *)
Theorem lookup_of_the_name_never_fails (e : Env) (w : World) (key : string) :
  (main e w).1 <> inl (KeyError key).
Proof.
  py_unfold. unfold Dict.contains. simpl.
  destruct (argv e) as [|prog [|name [|arg2 more]]]; simpl;
    repeat run_case; intros Hkey; simpl in Hkey;
    first
      [ discriminate Hkey
      | injection Hkey as ->;
        match goal with
        | H : Base64.b64decode _ = inl (KeyError _) |- _ =>
            apply b64decode_raises in H as [[msg H] | [msg H]]; discriminate H
        end ].
Qed.

(** ** Where a run installs *)





(** X11. When the write into the OS directory fails, the run ends there:
    the Flatpak directory is not tried, nothing is written and nothing is
    printed. *)
Theorem failed_first_write_ends_the_run
    (e : Env) (w : World) (prog lang_code : string)
    (href : option string) (payload : list Z) :
  argv e = [prog; lang_code] ->
  status_code (requests_get e listing_url) = 200 ->
  Dict.get (listing e) lang_code = Some href ->
  status_code (requests_get e (download_url href)) = 200 ->
  Base64.b64decode (text (requests_get e (download_url href))) = inr payload ->
  os_path_exists e (os_install_dir e) = true ->
  let os_file := dictionary_file_path (os_install_dir e) lang_code in
  open_raises e os_file = true ->
  main e w =
    (inl (OSError os_file),
     {| files := files w;
        requests := requests w ++ [listing_url; download_url href];
        writes := writes w;
        stdout := stdout w |}).
Proof.
  intros Hargv Hpage Hget Hfile Hdec Hos os_file Hopen. subst os_file.
  assert (Hin := contains_of_get _ _ _ Hget).
  apply status_200 in Hpage, Hfile.
  unfold os_install_dir in *.
  py_unfold. simpl.
  rewrite Hpage, Hargv, Hin, Hget. simpl. rewrite Hfile, Hdec. simpl.
  rewrite Hos. simpl. rewrite Hopen. simpl.
  by rewrite <- !app_assoc.
Qed.

(** An instance of X11: both directories exist and neither can be written. *)
Lemma failed_first_write_ends_the_run_witness :
  let e := with_open_raises
             (Example.env [Example.prog; Example.en_GB]
                [Example.os_dir; Example.flatpak_dir] 200 200
                Example.payload_text)
             (fun _ => true) in
  main e (initial ∅) =
    (inl (OSError (Example.os_dir +:+ "en-GB-10-1.bdic")),
     {| files := ∅;
        requests := [listing_url; download_url (Some Example.en_GB_href)];
        writes := [];
        stdout := [] |}).
Proof.
  intros e.
  exact (failed_first_write_ends_the_run e (initial ∅) Example.prog
           Example.en_GB (Some Example.en_GB_href) Example.payload
           eq_refl eq_refl eq_refl eq_refl eq_refl eq_refl eq_refl).
Defined.

(** X12. When the write into the OS directory succeeds and the one into the
    Flatpak directory fails, the run ends with the exception and without a
    closing message, and the file in the OS directory stays. *)
Theorem failed_second_write_keeps_the_first
    (e : Env) (w : World) (prog lang_code : string)
    (href : option string) (payload : list Z) :
  argv e = [prog; lang_code] ->
  status_code (requests_get e listing_url) = 200 ->
  Dict.get (listing e) lang_code = Some href ->
  status_code (requests_get e (download_url href)) = 200 ->
  Base64.b64decode (text (requests_get e (download_url href))) = inr payload ->
  os_path_exists e (os_install_dir e) = true ->
  os_path_exists e (flatpak_install_dir e) = true ->
  let os_file := dictionary_file_path (os_install_dir e) lang_code in
  let flatpak_file := dictionary_file_path (flatpak_install_dir e) lang_code in
  open_raises e os_file = false ->
  open_raises e flatpak_file = true ->
  main e w =
    (inl (OSError flatpak_file),
     {| files := <[os_file := payload]> (files w);
        requests := requests w ++ [listing_url; download_url href];
        writes := writes w ++ [(os_file, payload)];
        stdout := stdout w ++ [Line (msg_saved lang_code os_file)] |}).
Proof.
  intros Hargv Hpage Hget Hfile Hdec Hos Hflat os_file flatpak_file Hw1 Hw2.
  subst os_file flatpak_file.
  assert (Hin := contains_of_get _ _ _ Hget).
  apply status_200 in Hpage, Hfile.
  unfold os_install_dir, flatpak_install_dir in *.
  py_unfold. simpl.
  rewrite Hpage, Hargv, Hin, Hget. simpl. rewrite Hfile, Hdec. simpl.
  rewrite Hos, Hflat. simpl. rewrite Hw1. simpl. rewrite Hw2. simpl.
  by rewrite <- !app_assoc.
Qed.

(** An instance of X12: only the Flatpak directory is read-only. *)
Lemma failed_second_write_keeps_the_first_witness :
  let e := with_open_raises
             (Example.env [Example.prog; Example.en_GB]
                [Example.os_dir; Example.flatpak_dir] 200 200
                Example.payload_text)
             (fun path => Str.startswith path Example.flatpak_dir) in
  let os_file := Example.os_dir +:+ "en-GB-10-1.bdic" in
  main e (initial ∅) =
    (inl (OSError (Example.flatpak_dir +:+ "en-GB-10-1.bdic")),
     {| files := <[os_file := Example.payload]> ∅;
        requests := [listing_url; download_url (Some Example.en_GB_href)];
        writes := [(os_file, Example.payload)];
        stdout := [Line (msg_saved Example.en_GB os_file)] |}).
Proof.
  intros e os_file.
  exact (failed_second_write_keeps_the_first e (initial ∅) Example.prog
           Example.en_GB (Some Example.en_GB_href) Example.payload
           eq_refl eq_refl eq_refl eq_refl eq_refl eq_refl eq_refl
           eq_refl eq_refl).
Defined.

(** X13. The file is fetched before any directory is looked at: when the
    custom directory is missing and the fetch of the file fails, the run
    raises for the fetch and never reports the missing directory. *)
Theorem fetch_precedes_directory_check
    (e : Env) (w : World) (prog lang_code arg2 : string) (more : list string)
    (href : option string) :
  argv e = prog :: lang_code :: arg2 :: more ->
  status_code (requests_get e listing_url) = 200 ->
  Dict.get (listing e) lang_code = Some href ->
  os_path_exists e (expanduser e arg2) = false ->
  status_code (requests_get e (download_url href)) <> 200 ->
  main e w =
    (inl (Exception_ (msg_failed_to_load (download_url href))),
     {| files := files w;
        requests := requests w ++ [listing_url; download_url href];
        writes := writes w;
        stdout := stdout w ++ [Line (msg_using_custom (expanduser e arg2))] |}).
Proof.
  intros Hargv Hpage Hget Hmissing Hfile.
  assert (Hin := contains_of_get _ _ _ Hget).
  apply status_200 in Hpage. apply status_not_200 in Hfile.
  py_unfold. simpl.
  rewrite Hpage, Hargv, Hin, Hget. simpl. rewrite Hfile. simpl.
  by rewrite <- !app_assoc.
Qed.

(** An instance of X13: no directory exists and the server answers 404. *)
Lemma fetch_precedes_directory_check_witness :
  let e := Example.env [Example.prog; Example.en_GB; Example.custom_dir] []
             200 404 Example.payload_text in
  main e (initial ∅) =
    (inl (Exception_ (msg_failed_to_load (download_url (Some Example.en_GB_href)))),
     {| files := ∅;
        requests := [listing_url; download_url (Some Example.en_GB_href)];
        writes := [];
        stdout := [Line (msg_using_custom Example.custom_dir)] |}).
Proof.
  intros e.
  refine (fetch_precedes_directory_check e (initial ∅) Example.prog
            Example.en_GB Example.custom_dir [] (Some Example.en_GB_href)
            eq_refl eq_refl eq_refl eq_refl _).
  vm_compute. discriminate.
Defined.

(** ** What a run does to the files *)

(** X14. Running the script a second time, in the same environment, leaves
    every file as the first run left it. *)
Theorem second_run_changes_no_file (e : Env) (w : World) :
  files (main e (main e w).2).2 = files (main e w).2.
Proof.
  py_unfold. unfold Dict.contains. simpl.
  destruct (argv e) as [|prog [|name [|arg2 more]]]; simpl;
    repeat run_case; try done;
    apply map_eq; intros i; rewrite !lookup_insert;
    repeat case_decide; done.
Qed.



(** X16. A name that starts with a slash is written outside the directory:
    [install_lang_file] then writes [<name>.bdic] itself, whatever the
    directory is. *)
Theorem absolute_name_escapes_the_directory
    (e : Env) (w : World) (lang_code directory : string) (payload : list Z) :
  Str.startswith lang_code "/" = true ->
  open_raises e (lang_code +:+ file_ext) = false ->
  install_lang_file e lang_code payload directory w =
    (inr true,
     {| files := <[lang_code +:+ file_ext := payload]> (files w);
        requests := requests w;
        writes := writes w ++ [(lang_code +:+ file_ext, payload)];
        stdout := stdout w ++
          [Line (msg_saved lang_code (lang_code +:+ file_ext))] |}).
Proof.
  intros Habs Hopen.
  assert (dictionary_file_path directory lang_code = lang_code +:+ file_ext)
    as Hpath.
  { unfold dictionary_file_path, os_path_join.
    destruct lang_code as [|c name]; [done|]. simpl in *. by rewrite Habs. }
  py_unfold. simpl. by rewrite Hpath, Hopen.
Qed.

(** An instance of X16: the name [/tmp/evil] with the OS directory. *)
Lemma absolute_name_escapes_the_directory_witness :
  let e := Example.env [] [Example.os_dir] 200 200 Example.payload_text in
  install_lang_file e "/tmp/evil" [1; 2] Example.os_dir (initial ∅) =
    (inr true,
     {| files := <["/tmp/evil.bdic" := [1; 2]]> ∅;
        requests := [];
        writes := [("/tmp/evil.bdic", [1; 2])];
        stdout := [Line (msg_saved "/tmp/evil" "/tmp/evil.bdic")] |}).
Proof.
  intros e.
  exact (absolute_name_escapes_the_directory e (initial ∅) "/tmp/evil"
           Example.os_dir [1; 2] eq_refl eq_refl).
Defined.

(** ** What the decoder returns *)

Module Base64More.
Import Base64 Base64Facts.

Lemma table_range (c : ascii) (v : Z) :
  table_a2b_base64 c = Some v -> 0 <= v < 64.
Proof.
  unfold table_a2b_base64.
  repeat (case_match; [intros [= <-]; lia|]); done.
Qed.

Lemma emit_inr (b : Z) (r : Exn + list Z) (bs : list Z) :
  emit b r = inr bs -> exists bs', r = inr bs' /\ bs = b :: bs'.
Proof. destruct r; simpl; [done|]. intros [= <-]. eauto. Qed.

(** A byte put together from the left-over bits and the next character. *)
Lemma emitted_byte (n m : nat) (k j : Z) (l v : Z) :
  forallb (fun l => forallb (fun v =>
      let b := Z.lor (Z.shiftl l k) (Z.shiftr v j) in (0 <=? b) && (b <? 256))
    (below m)) (below n) = true ->
  0 <= l < Z.of_nat n -> 0 <= v < Z.of_nat m ->
  is_byte (Z.lor (Z.shiftl l k) (Z.shiftr v j)).
Proof.
  intros Hall Hl Hv.
  pose proof (below_ok2 n m
    (fun l v => let b := Z.lor (Z.shiftl l k) (Z.shiftr v j) in
                (0 <=? b) && (b <? 256)) Hall l v Hl Hv) as Hb.
  simpl in Hb. unfold is_byte. lia.
Qed.

Lemma a2b_loop_bytes (s : string) (quad_pos : nat) (leftchar : Z) (pads : nat)
    (bs : list Z) :
  leftchar_fits quad_pos leftchar ->
  a2b_loop s quad_pos leftchar pads = inr bs -> Forall is_byte bs.
Proof.
  revert quad_pos leftchar pads bs.
  induction s as [|c s IH]; intros quad_pos leftchar pads bs Hfits.
  - simpl. destruct quad_pos as [|[|?]]; [|done..]. by intros [= <-].
  - cbn [a2b_loop]. destruct (decide (c = BASE64_PAD)).
    { repeat case_match; try (by intros [= <-]); by apply IH. }
    destruct (table_a2b_base64 c) as [v|] eqn:Htab; [|by apply IH].
    apply table_range in Htab.
    destruct quad_pos as [|[|[|quad_pos]]]; simpl in Hfits.
    + apply IH. simpl. lia.
    + intros (bs' & Hrest & ->)%emit_inr. apply Forall_cons. split.
      * by apply (emitted_byte 64 64 2 4); [vm_compute|..].
      * exact (IH 2%nat (Z.land v 15) 0%nat bs' (land_15 v) Hrest).
    + intros (bs' & Hrest & ->)%emit_inr. apply Forall_cons. split.
      * by apply (emitted_byte 16 64 4 2); [vm_compute|..].
      * exact (IH 3%nat (Z.land v 3) 0%nat bs' (land_3 v) Hrest).
    + intros (bs' & Hrest & ->)%emit_inr. apply Forall_cons. split.
      * rewrite <- (Z.shiftr_0_r v).
        by apply (emitted_byte 4 64 6 0); [vm_compute|..].
      * by apply (IH 0%nat 0 0%nat bs').
Qed.

(** X17. Whatever the body is, what [b64decode] returns for it is a list of
    bytes: every element is between 0 and 255. *)
Theorem decoded_payload_is_bytes (s : string) (bs : list Z) :
  b64decode s = inr bs -> Forall is_byte bs.
Proof.
  unfold b64decode, a2b_base64. destruct (is_ascii s); [|done].
  by apply a2b_loop_bytes.
Qed.

(** An instance of X17: a page of HTML as the body. *)
Lemma decoded_payload_is_bytes_witness :
  Forall is_byte
    [134; 217; 165; 158; 139; 98; 157; 182; 172; 123; 174; 63; 134; 217; 165].
Proof.
  exact (decoded_payload_is_bytes "<html>not in base64</html>" _ eq_refl).
Defined.

(** X18. Characters outside the alphabet, such as line breaks and spaces,
    do not change what a body decodes to: a body that is the base64 text of
    some bytes once those characters are taken out decodes to these bytes. *)
Theorem other_characters_do_not_change_the_payload (s : string) (bs : list Z) :
  is_ascii s = true ->
  Forall is_byte bs ->
  strip s = b64encode bs ->
  b64decode s = inr bs.
Proof.
  intros Hascii Hbs Hstrip.
  by rewrite <- (b64decode_strip s Hascii), Hstrip, b64decode_b64encode.
Qed.

(** An instance of X18: the text of [ABCD] broken into two lines. *)
Lemma other_characters_do_not_change_the_payload_witness :
  b64decode ("QUJD" +:+ LF +:+ "RA==" +:+ LF) = inr [65; 66; 67; 68].
Proof.
  refine (other_characters_do_not_change_the_payload
            ("QUJD" +:+ LF +:+ "RA==" +:+ LF) [65; 66; 67; 68]
            eq_refl _ eq_refl).
  repeat constructor; vm_compute; discriminate.
Defined.

Lemma is_ascii_app (s t : string) : is_ascii (s +:+ t) = is_ascii s && is_ascii t.
Proof.
  induction s as [|c s IH]; [done|]. simpl. by rewrite IH, andb_assoc.
Qed.

Lemma a2b_loop_padded (n : nat) (bs : list Z) (rest : string) :
  (length bs <= n)%nat -> Forall is_byte bs ->
  (length bs mod 3 <> 0)%nat ->
  a2b_loop (b64encode bs +:+ rest) 0 0 0 = inr bs.
Proof.
  revert bs. induction n as [n IH] using lt_wf_ind. intros bs Hlen Hbs Hmod.
  destruct bs as [|a [|b [|c more]]]; [done|..].
  - apply Forall_cons in Hbs as [Ha _].
    cbn [b64encode]. simpl String.append.
    rewrite !a2b_loop_alphabet
      by auto using sextet0_bound, sextet1_bound, is_byte_0.
    simpl. by rewrite (byte0_of_sextets a 0 Ha is_byte_0).
  - apply Forall_cons in Hbs as [Ha [Hb _]%Forall_cons].
    cbn [b64encode]. simpl String.append.
    rewrite !a2b_loop_alphabet
      by auto using sextet0_bound, sextet1_bound, sextet2_bound, is_byte_0.
    simpl.
    by rewrite (byte0_of_sextets a b Ha Hb),
      (byte1_of_sextets a b 0 Hb is_byte_0).
  - apply Forall_cons in Hbs as [Ha [Hb [Hc Hmore]%Forall_cons]%Forall_cons].
    cbn [b64encode]. simpl String.append.
    rewrite !a2b_loop_alphabet
      by auto using sextet0_bound, sextet1_bound, sextet2_bound, sextet3_bound.
    rewrite (IH (length more)); [|simpl in Hlen; lia|done|done|].
    + simpl.
      by rewrite (byte0_of_sextets a b Ha Hb), (byte1_of_sextets a b c Hb Hc),
        (byte2_of_sextets b c Hc).
    + intros Hzero. apply Hmod.
      replace (length (a :: b :: c :: more)) with (length more + 1 * 3)%nat
        by (simpl; lia).
      by rewrite Nat.Div0.mod_add.
Qed.

(** X19. Decoding ends at the padding: when the text of some bytes ends in
    padding, whatever follows it in the body is ignored. *)
Theorem data_after_padding_is_ignored (bs : list Z) (rest : string) :
  Forall is_byte bs ->
  (length bs mod 3 <> 0)%nat ->
  is_ascii rest = true ->
  b64decode (b64encode bs +:+ rest) = inr bs.
Proof.
  intros Hbs Hmod Hrest. unfold b64decode, a2b_base64.
  rewrite is_ascii_app, (is_ascii_b64encode (length bs)), Hrest by done.
  simpl. by apply (a2b_loop_padded (length bs)).
Qed.

(** An instance of X19: a second text appended to the text of [A]. *)
Lemma data_after_padding_is_ignored_witness :
  b64decode ("QQ==" +:+ "QUJD") = inr [65].
Proof.
  refine (data_after_padding_is_ignored [65] "QUJD" _ _ eq_refl).
  - repeat constructor; vm_compute; discriminate.
  - simpl. lia.
Defined.

End Base64More.
